(** * Single- and multi-unit activity analysis notebook: a shallow embedding

    The notebook [03_Single_Multi_Unit_Activity_Analysis.ipynb] defines seven
    functions ([load_data], [preprocess_data], [sort_spikes],
    [postprocess_sorting], [extract_features], [cluster_spikes],
    [plot_cluster_features]) and runs them once, cell after cell.  Every
    function is a sequence of calls into Neo, SpikeInterface, scikit-learn,
    NumPy and Plotly.  What the notebook itself decides is which library
    operation is called, with which arguments, in which order, and when it
    raises on its own; that is what is modelled here.

    A function body is a tree of library calls ([Prog]): a node is one call
    into a library, and the subtree taken depends on the value the library
    hands back.  A [World] plays the libraries: it answers every call, given
    the calls made so far, by a value or by an exception.  [run] executes a
    body in a world and yields the outcome together with the trace of the
    calls that were made. *)

From Stdlib Require Import String Ascii List ZArith Bool Lia.
From Stdlib Require Import Floats.SpecFloat.
Import ListNotations.
Local Open Scope string_scope.
Local Open Scope list_scope.
#[local] Set Warnings "-register-all".

(** ** Python values *)

(** The values that the notebook writes down or passes around.  [VObj] is a
    reference to an object owned by a library (a reader, a recording, a
    sorting, an array, a figure): the notebook never looks inside one.
    A dictionary keeps its entries in insertion order, keys are strings (the
    notebook only builds and unpacks keyword dictionaries). *)
Inductive Value : Type :=
| VNone
| VBool (b : bool)
| VInt (z : Z)
| VFloat (f : spec_float)
| VStr (s : string)
| VTuple (items : list Value)
| VDict (entries : list (string * Value))
| VSlice (start stop step : Value)
| VObj (id : nat).

Abbreviation Dict := (list (string * Value)).

(** Float literals of the notebook; each is a dyadic number, hence exact. *)
Definition float_0_5 : spec_float := S754_finite false 1 (-1).
Definition float_1_5 : spec_float := S754_finite false 3 (-1).
Definition float_2_5 : spec_float := S754_finite false 5 (-1).

(** The subscript [:] is [slice(None, None, None)]. *)
Definition slice_all : Value := VSlice VNone VNone VNone.

(** [d.get(key)] / [key in d] / [d[key]] on a dictionary with string keys. *)
Fixpoint dict_get (d : Dict) (key : string) : option Value :=
  match d with
  | [] => None
  | (k, v) :: rest => if String.eqb k key then Some v else dict_get rest key
  end.

Definition dict_has (d : Dict) (key : string) : bool :=
  match dict_get d key with Some _ => true | None => false end.

(** [d.get(key, default)]. *)
Definition dict_get_default (d : Dict) (key : string) (default : Value) : Value :=
  match dict_get d key with Some v => v | None => default end.

(** ** Exceptions *)

Record Exn : Type := mkExn { exn_class : string; exn_msg : string }.

Definition ValueError (msg : string) : Exn := mkExn "ValueError" msg.
Definition TypeError (msg : string) : Exn := mkExn "TypeError" msg.
Definition KeyError (msg : string) : Exn := mkExn "KeyError" msg.

(** [sub in s] on strings. *)
Fixpoint contains (sub s : string) : bool :=
  String.prefix sub s
  || match s with
     | EmptyString => false
     | String _ rest => contains sub rest
     end.

(** ** Library calls *)

(** One operation performed by library code on behalf of the notebook. *)
Inductive Call : Type :=
| CallFn (name : string) (args : list Value) (kwargs : Dict)
    (* [name(args..., key=value...)]: a module-level function or a constructor *)
| CallMethod (recv : Value) (name : string) (args : list Value) (kwargs : Dict)
    (* [recv.name(args..., key=value...)] *)
| GetAttr (recv : Value) (name : string)
    (* [recv.name] *)
| GetItem (recv : Value) (index : Value)
    (* [recv[index]] *)
| Unpack (mapping : Value).
    (* the entries of a library object, read through its [keys] and items
       when the interpreter unpacks it as the operand of a double star *)

Inductive Outcome (A : Type) : Type :=
| Returned (a : A)
| Raised (e : Exn).
Arguments Returned {A} a.
Arguments Raised {A} e.

Abbreviation Event := (Call * Outcome Value)%type.
Abbreviation Trace := (list Event).

(** The libraries: the answer to a call may depend on everything that was
    called before (files on disk, fitted models, figures). *)
Definition World : Type := Trace -> Call -> Outcome Value.

(** ** Function bodies *)

(** [Prog E A]: the body of a Python function that performs operations of
    type [E] and returns an [A].  [Raise] is a [raise] statement of the
    notebook; [Fault] is an exception that comes from the interpreter while
    it evaluates one of the notebook's own expressions (for instance a bad
    operand of [**]).  [Vis c k] performs [c] and goes on with [k] on its
    answer; an exception of [c] ends the body.  [Try c handler k] performs
    [c] inside a handler: an exception [e] of [c] does not end the body, which
    goes on as [handler e].  With [catch] below this is the [try] statement
    in full; whether a body uses it is a property of the body. *)
Inductive Prog (E A : Type) : Type :=
| Ret (a : A)
| Raise (e : Exn)
| Fault (e : Exn)
| Vis (c : E) (k : Value -> Prog E A)
| Try (c : E) (handler : Exn -> Prog E A) (k : Value -> Prog E A).
Arguments Ret {E A} a.
Arguments Raise {E A} e.
Arguments Fault {E A} e.
Arguments Vis {E A} c k.
Arguments Try {E A} c handler k.

Fixpoint bind {E A B} (p : Prog E A) (f : A -> Prog E B) : Prog E B :=
  match p with
  | Ret a => f a
  | Raise e => Raise e
  | Fault e => Fault e
  | Vis c k => Vis c (fun v => bind (k v) f)
  | Try c handler k => Try c (fun e => bind (handler e) f) (fun v => bind (k v) f)
  end.

(** [try: a = p / except Exception as e: handler(e) / else: k(a)]: every
    exception that [p] would end with goes to the handler instead. *)
Fixpoint catch {E A B} (p : Prog E A) (handler : Exn -> Prog E B)
    (k : A -> Prog E B) : Prog E B :=
  match p with
  | Ret a => k a
  | Raise e => handler e
  | Fault e => handler e
  | Vis c k' => Try c handler (fun v => catch (k' v) handler k)
  | Try c handler' k' =>
      Try c (fun e => catch (handler' e) handler k)
        (fun v => catch (k' v) handler k)
  end.

Declare Scope prog_scope.
Delimit Scope prog_scope with prog.
Notation "x <- p ;; q" := (bind p (fun x => q))
  (at level 61, p at next level, right associativity) : prog_scope.
Notation "p ;; q" := (bind p (fun _ => q))
  (at level 61, right associativity) : prog_scope.
Local Open Scope prog_scope.

Definition ext (c : Call) : Prog Call Value := Vis c Ret.

Definition call (name : string) (args : list Value) (kwargs : Dict) : Prog Call Value :=
  ext (CallFn name args kwargs).
Definition call_method (recv : Value) (name : string) (args : list Value)
    (kwargs : Dict) : Prog Call Value :=
  ext (CallMethod recv name args kwargs).
Definition getattr (recv : Value) (name : string) : Prog Call Value :=
  ext (GetAttr recv name).
Definition getitem (recv index : Value) : Prog Call Value :=
  ext (GetItem recv index).

(** Running a body: calls are answered by the world one after the other; an
    exception, raised by a library or by the body, ends the run, unless it
    is raised by a call inside a handler.  The trace lists the calls of this
    run, oldest first; [h] is what happened before. *)
Fixpoint run {A} (w : World) (h : Trace) (p : Prog Call A) : Outcome A * Trace :=
  match p with
  | Ret a => (Returned a, [])
  | Raise e => (Raised e, [])
  | Fault e => (Raised e, [])
  | Vis c k =>
      match w h c with
      | Returned v =>
          let (r, t) := run w (h ++ [(c, Returned v)]) (k v) in
          (r, (c, Returned v) :: t)
      | Raised e => (Raised e, [(c, Raised e)])
      end
  | Try c handler k =>
      match w h c with
      | Returned v =>
          let (r, t) := run w (h ++ [(c, Returned v)]) (k v) in
          (r, (c, Returned v) :: t)
      | Raised e =>
          let (r, t) := run w (h ++ [(c, Raised e)]) (handler e) in
          (r, (c, Raised e) :: t)
      end
  end.

(** ** Truth value and keyword unpacking *)

(** [bool(v)] for the built-in values, as [if v:] takes it; [None] (of
    [option]) for a library object, whose truth value is decided by its own
    [__bool__]/[__len__]. *)
Definition truthy (v : Value) : option bool :=
  match v with
  | VNone => Some false
  | VBool b => Some b
  | VInt z => Some (negb (Z.eqb z 0))
  | VFloat f => Some (match f with S754_zero _ => false | _ => true end)
  | VStr s => Some (match s with EmptyString => false | _ => true end)
  | VTuple l => Some (match l with [] => false | _ => true end)
  | VDict d => Some (match d with [] => false | _ => true end)
  | VSlice _ _ _ => Some true
  | VObj _ => None
  end.

Definition truth (v : Value) : Prog Call bool :=
  match truthy v with
  | Some b => Ret b
  | None =>
      b <- call "bool" [v] [] ;;
      match b with
      | VBool b => Ret b
      | _ => Fault (TypeError "__bool__ should return bool")
      end
  end.

(** The entries of the operand of [**].  A library object is read through
    its mapping protocol, which is library code.  The interpreter does this
    inside a handler of its own: an [AttributeError] raised on the way (the
    object has no [keys], or its code raises one) is replaced by the
    [TypeError] for an operand that is no mapping; any other exception goes
    on as it is.  An exception is known by the name of its class, so an
    instance of a subclass of [AttributeError] is written as an
    [AttributeError]. *)
Definition mapping_entries (v : Value) : Prog Call Dict :=
  match v with
  | VDict d => Ret d
  | VObj _ =>
      Try (Unpack v)
        (fun e =>
           if String.eqb (exn_class e) "AttributeError"
           then Fault (TypeError "argument after ** must be a mapping")
           else Fault e)
        (fun d =>
           match d with
           | VDict d => Ret d
           | _ => Fault (TypeError "argument after ** must be a mapping")
           end)
  | _ => Fault (TypeError "argument after ** must be a mapping")
  end.

(** The first key of [d] that is already among the [explicit] keywords. *)
Fixpoint repeated_keyword (explicit d : Dict) : option string :=
  match d with
  | [] => None
  | (k, _) :: rest =>
      if dict_has explicit k then Some k else repeated_keyword explicit rest
  end.

(** The keyword arguments of [f(..., key=value, ..., **v)]: the interpreter
    refuses a key given twice before [f] is entered ([callee] is the name of
    [f] as the message prints it). *)
Definition keywords (callee : string) (explicit : Dict) (v : Value)
    : Prog Call Dict :=
  d <- mapping_entries v ;;
  match repeated_keyword explicit d with
  | Some k =>
      Fault (TypeError (callee ++ "() got multiple values for keyword argument '"
                          ++ k ++ "'"))
  | None => Ret (explicit ++ d)
  end.

(** ** The functions of the notebook *)

(** [def load_data(file_path, io_type='NeuralynxIO')] *)
Definition load_data (file_path : Value) (io_type : string) : Prog Call Value :=
  neuralynx <- call "NeuralynxIO" [] [("dirname", file_path)] ;;
  blackrock <- call "BlackrockIO" [] [("filename", file_path)] ;;
  nix <- call "NixIO" [] [("filename", file_path)] ;;
  let io_types : Dict :=
    [("NeuralynxIO", neuralynx); ("BlackrockIO", blackrock); ("NixIO", nix)] in
  if negb (dict_has io_types io_type) then
    Raise (ValueError ("Unsupported IO type: " ++ io_type))
  else
    match dict_get io_types io_type with
    | None => Fault (KeyError io_type)
    | Some reader =>
        block <- call_method reader "read_block" [] [] ;;
        segments <- getattr block "segments" ;;
        segment <- getitem segments (VInt 0) ;;
        analogsignals <- getattr segment "analogsignals" ;;
        analog_signal <- getitem analogsignals (VInt 0) ;;
        recording <- call "se.NeoRecordingExtractor" [analog_signal] [] ;;
        Ret recording
    end.

(** [def preprocess_data(recording, freq_min=300, freq_max=3000,
                         notch_freq=None, common_ref_type='median')] *)
Definition preprocess_data (recording freq_min freq_max notch_freq
    common_ref_type : Value) : Prog Call Value :=
  recording_bp <- call "sp.bandpass_filter" [recording]
                    [("freq_min", freq_min); ("freq_max", freq_max)] ;;
  supplied <- truth notch_freq ;;
  recording_notch <- (if supplied : bool
                      then call "sp.notch_filter" [recording_bp] [("freq", notch_freq)]
                      else Ret recording_bp) ;;
  recording_cmr <- call "sp.common_reference" [recording_notch]
                     [("reference", common_ref_type)] ;;
  Ret recording_cmr.

(** [def sort_spikes(recording, sorter_name='kilosort2', custom_params=None)] *)
Definition sort_spikes (recording sorter_name custom_params : Value)
    : Prog Call Value :=
  given <- truth custom_params ;;
  sorter_params <- (if given : bool
                    then Ret custom_params
                    else call "ss.get_default_params" [sorter_name] []) ;;
  kwargs <- keywords "run_sorter" [("output_folder", VStr "sorting_output")]
              sorter_params ;;
  sorting <- call "ss.run_sorter" [sorter_name; recording] kwargs ;;
  Ret sorting.

(** [def postprocess_sorting(sorting, recording)] *)
Definition postprocess_sorting (sorting recording : Value) : Prog Call Value :=
  waveform_extractor <- call "spost.WaveformExtractor.create" [recording; sorting]
                          [("folder", VStr "waveforms");
                           ("remove_existing_folder", VBool true)] ;;
  call_method waveform_extractor "set_params" []
    [("ms_before", VFloat float_1_5); ("ms_after", VFloat float_2_5)] ;;
  call_method waveform_extractor "run" [] [] ;;
  Ret waveform_extractor.

(** [def extract_features(waveform_extractor, method='pca', n_components=3)] *)
Definition extract_features (waveform_extractor : Value) (method : string)
    (n_components : Value) : Prog Call Value :=
  waveforms <- call_method waveform_extractor "get_waveforms" [] [] ;;
  if String.eqb method "pca" then
    pca <- call "PCA" [] [("n_components", n_components)] ;;
    shape <- getattr waveforms "shape" ;;
    n_spikes <- getitem shape (VInt 0) ;;
    flat <- call_method waveforms "reshape" [n_spikes; VInt (-1)] [] ;;
    features <- call_method pca "fit_transform" [flat] [] ;;
    Ret features
  else
    magnitude <- call "np.abs" [waveforms] [] ;;
    spike_width <- call "np.mean" [magnitude] [("axis", VTuple [VInt 1; VInt 2])] ;;
    spike_amplitude <- call "np.std" [waveforms] [("axis", VTuple [VInt 1; VInt 2])] ;;
    features <- call "np.column_stack" [VTuple [spike_width; spike_amplitude]] [] ;;
    Ret features.

(** [def cluster_spikes(features, method='gmm', **kwargs)] *)
Definition cluster_spikes (features : Value) (method : string) (kwargs : Dict)
    : Prog Call Value :=
  if String.eqb method "gmm" then
    gmm <- call "GaussianMixture" []
             [("n_components", dict_get_default kwargs "n_components" (VInt 3))] ;;
    labels <- call_method gmm "fit_predict" [features] [] ;;
    Ret labels
  else if String.eqb method "dbscan" then
    db <- call "DBSCAN" []
            [("eps", dict_get_default kwargs "eps" (VFloat float_0_5));
             ("min_samples", dict_get_default kwargs "min_samples" (VInt 5))] ;;
    labels <- call_method db "fit_predict" [features] [] ;;
    Ret labels
  else if String.eqb method "agglomerative" then
    agc <- call "AgglomerativeClustering" []
             [("n_clusters", dict_get_default kwargs "n_clusters" (VInt 3))] ;;
    labels <- call_method agc "fit_predict" [features] [] ;;
    Ret labels
  else
    Raise (ValueError ("Unsupported clustering method: " ++ method)).

(** [def plot_cluster_features(features, labels)]: no [return] statement,
    the call evaluates to [None]. *)
Definition plot_cluster_features (features labels : Value) : Prog Call Value :=
  x <- getitem features (VTuple [slice_all; VInt 0]) ;;
  y <- getitem features (VTuple [slice_all; VInt 1]) ;;
  fig <- call "px.scatter" [] [("x", x); ("y", y); ("color", labels)] ;;
  call_method fig "update_layout" []
    [("title", VStr "Spike Clustering");
     ("xaxis_title", VStr "Feature 1");
     ("yaxis_title", VStr "Feature 2")] ;;
  call_method fig "show" [] [] ;;
  Ret VNone.

(** ** The notebook as a whole *)

(** The seven functions, by name. *)
Inductive Fn : Type :=
| load_data_fn
| preprocess_data_fn
| sort_spikes_fn
| postprocess_sorting_fn
| extract_features_fn
| cluster_spikes_fn
| plot_cluster_features_fn.

(** A call of one of the seven functions, with its arguments bound. *)
Inductive FnCall : Type :=
| Load_data (file_path : Value) (io_type : string)
| Preprocess_data (recording freq_min freq_max notch_freq common_ref_type : Value)
| Sort_spikes (recording sorter_name custom_params : Value)
| Postprocess_sorting (sorting recording : Value)
| Extract_features (waveform_extractor : Value) (method : string) (n_components : Value)
| Cluster_spikes (features : Value) (method : string) (kwargs : Dict)
| Plot_cluster_features (features labels : Value).

Definition fn_of (c : FnCall) : Fn :=
  match c with
  | Load_data _ _ => load_data_fn
  | Preprocess_data _ _ _ _ _ => preprocess_data_fn
  | Sort_spikes _ _ _ => sort_spikes_fn
  | Postprocess_sorting _ _ => postprocess_sorting_fn
  | Extract_features _ _ _ => extract_features_fn
  | Cluster_spikes _ _ _ => cluster_spikes_fn
  | Plot_cluster_features _ _ => plot_cluster_features_fn
  end.

Definition body (c : FnCall) : Prog Call Value :=
  match c with
  | Load_data file_path io_type => load_data file_path io_type
  | Preprocess_data recording freq_min freq_max notch_freq common_ref_type =>
      preprocess_data recording freq_min freq_max notch_freq common_ref_type
  | Sort_spikes recording sorter_name custom_params =>
      sort_spikes recording sorter_name custom_params
  | Postprocess_sorting sorting recording => postprocess_sorting sorting recording
  | Extract_features waveform_extractor method n_components =>
      extract_features waveform_extractor method n_components
  | Cluster_spikes features method kwargs => cluster_spikes features method kwargs
  | Plot_cluster_features features labels => plot_cluster_features features labels
  end.

(** The functions that end in a [return] statement. *)
Definition has_return (f : Fn) : bool :=
  match f with
  | plot_cluster_features_fn => false
  | _ => true
  end.

(** The objects a call works on, as opposed to the options that tune it. *)
Definition data_inputs (c : FnCall) : list Value :=
  match c with
  | Load_data file_path _ => [file_path]
  | Preprocess_data recording _ _ _ _ => [recording]
  | Sort_spikes recording _ _ => [recording]
  | Postprocess_sorting sorting recording => [sorting; recording]
  | Extract_features waveform_extractor _ _ => [waveform_extractor]
  | Cluster_spikes features _ _ => [features]
  | Plot_cluster_features features labels => [features; labels]
  end.

(** Default values of the parameters, from the [def] lines. *)
Module Default.
Definition io_type : string := "NeuralynxIO".
Definition freq_min : Value := VInt 300.
Definition freq_max : Value := VInt 3000.
Definition notch_freq : Value := VNone.
Definition common_ref_type : Value := VStr "median".
Definition sorter_name : Value := VStr "kilosort2".
Definition custom_params : Value := VNone.
Definition feature_method : string := "pca".
Definition n_components : Value := VInt 3.
Definition cluster_method : string := "gmm".
End Default.

(** What a top-level statement of a cell does: it calls one of the seven
    functions, or a built-in ([print]). *)
Inductive Stmt : Type :=
| Invoke (c : FnCall)
| Builtin (c : Call).

Definition invoke (c : FnCall) : Prog Stmt Value := Vis (Invoke c) Ret.
Definition builtin (name : string) (args : list Value) : Prog Stmt Value :=
  Vis (Builtin (CallFn name args [])) Ret.

(** The "Example Usage" statements of the cells, in notebook order. *)
Definition example_usage : Prog Stmt unit :=
  let example_file_path := VStr "data/sample_data" in
  recording <- invoke (Load_data example_file_path Default.io_type) ;;
  recording_preprocessed <-
    invoke (Preprocess_data recording Default.freq_min Default.freq_max
              Default.notch_freq Default.common_ref_type) ;;
  sorting <- invoke (Sort_spikes recording_preprocessed Default.sorter_name
                       Default.custom_params) ;;
  waveform_extractor <- invoke (Postprocess_sorting sorting recording_preprocessed) ;;
  features <- invoke (Extract_features waveform_extractor Default.feature_method
                        Default.n_components) ;;
  labels <- invoke (Cluster_spikes features "gmm" []) ;;
  builtin "print" [VStr "Cluster Labels:"; labels] ;;
  invoke (Plot_cluster_features features labels) ;;
  Ret tt.

(** One entry of the function-level log: the call and how it ended. *)
Abbreviation FnEvent := (FnCall * Outcome Value)%type.

(** Running top-level statements: a function call runs the function's body
    in the world.  Besides the outcome, the run yields the log of the
    function calls and the trace of all library calls. *)
Fixpoint run_script {A} (w : World) (h : Trace) (p : Prog Stmt A)
    : Outcome A * list FnEvent * Trace :=
  match p with
  | Ret a => (Returned a, [], [])
  | Raise e => (Raised e, [], [])
  | Fault e => (Raised e, [], [])
  | Vis (Invoke c) k =>
      match run w h (body c) with
      | (Returned v, t) =>
          let '(r, log, t') := run_script w (h ++ t) (k v) in
          (r, (c, Returned v) :: log, t ++ t')
      | (Raised e, t) => (Raised e, [(c, Raised e)], t)
      end
  | Vis (Builtin c) k =>
      match w h c with
      | Returned v =>
          let '(r, log, t) := run_script w (h ++ [(c, Returned v)]) (k v) in
          (r, log, (c, Returned v) :: t)
      | Raised e => (Raised e, [], [(c, Raised e)])
      end
  | Try (Invoke c) handler k =>
      match run w h (body c) with
      | (Returned v, t) =>
          let '(r, log, t') := run_script w (h ++ t) (k v) in
          (r, (c, Returned v) :: log, t ++ t')
      | (Raised e, t) =>
          let '(r, log, t') := run_script w (h ++ t) (handler e) in
          (r, (c, Raised e) :: log, t ++ t')
      end
  | Try (Builtin c) handler k =>
      match w h c with
      | Returned v =>
          let '(r, log, t) := run_script w (h ++ [(c, Returned v)]) (k v) in
          (r, log, (c, Returned v) :: t)
      | Raised e =>
          let '(r, log, t) := run_script w (h ++ [(c, Raised e)]) (handler e) in
          (r, log, (c, Raised e) :: t)
      end
  end.

(** The statements with every function call replaced by the function's body. *)
Fixpoint inline {A} (p : Prog Stmt A) : Prog Call A :=
  match p with
  | Ret a => Ret a
  | Raise e => Raise e
  | Fault e => Fault e
  | Vis (Invoke c) k => v <- body c ;; inline (k v)
  | Vis (Builtin c) k => Vis c (fun v => inline (k v))
  | Try (Invoke c) handler k =>
      catch (body c) (fun e => inline (handler e)) (fun v => inline (k v))
  | Try (Builtin c) handler k =>
      Try c (fun e => inline (handler e)) (fun v => inline (k v))
  end.

(** ** Reading traces *)

Definition returned {A} (o : Outcome A) : bool :=
  match o with Returned _ => true | Raised _ => false end.

(** No call of the trace raised. *)
Definition all_returned (t : Trace) : bool := forallb (fun ev => returned (snd ev)) t.

(** The calls of a trace, in order. *)
Definition calls (t : Trace) : list Call := map fst t.

(** A [raise] statement can be reached, for some answers of the libraries. *)
Inductive has_raise {E A} : Prog E A -> Prop :=
| has_raise_here (e : Exn) : has_raise (Raise e)
| has_raise_later (c : E) (k : Value -> Prog E A) (v : Value) :
    has_raise (k v) -> has_raise (Vis c k)
| has_raise_tried (c : E) (handler : Exn -> Prog E A) (k : Value -> Prog E A)
    (v : Value) :
    has_raise (k v) -> has_raise (Try c handler k)
| has_raise_handled (c : E) (handler : Exn -> Prog E A) (k : Value -> Prog E A)
    (e : Exn) :
    has_raise (handler e) -> has_raise (Try c handler k).


(** ** Two worlds to compute with *)

(** Every library call succeeds and hands back a new object; the default
    parameters of a sorter are a dictionary. *)
Definition sample_world : World :=
  fun h c =>
    match c with
    | CallFn name _ _ =>
        if String.eqb name "ss.get_default_params"
        then Returned (VDict [("detect_threshold", VInt 6)])
        else if String.eqb name "print" then Returned VNone
        else Returned (VObj (length h))
    | CallMethod _ name _ _ =>
        if String.eqb name "set_params" || String.eqb name "run"
           || String.eqb name "show"
        then Returned VNone
        else Returned (VObj (length h))
    | _ => Returned (VObj (length h))
    end.

(** As [sample_world], but there is no Neuralynx directory at the path. *)
Definition no_neuralynx_world : World :=
  fun h c =>
    match c with
    | CallFn name _ _ =>
        if String.eqb name "NeuralynxIO"
        then Raised (mkExn "FileNotFoundError" "No such file or directory")
        else sample_world h c
    | _ => sample_world h c
    end.


(** ** Vocabulary of the properties *)



(** The three reader constructions at the head of [load_data]. *)
Definition neuralynx_reader (file_path : Value) : Call :=
  CallFn "NeuralynxIO" [] [("dirname", file_path)].
Definition blackrock_reader (file_path : Value) : Call :=
  CallFn "BlackrockIO" [] [("filename", file_path)].
Definition nix_reader (file_path : Value) : Call :=
  CallFn "NixIO" [] [("filename", file_path)].

(** The selector strings that the two selecting functions accept. *)
Definition supported_io_type (io_type : string) : bool :=
  existsb (fun name => String.eqb name io_type) ["NeuralynxIO"; "BlackrockIO"; "NixIO"].
Definition supported_clustering (method : string) : bool :=
  existsb (String.eqb method) ["gmm"; "dbscan"; "agglomerative"].

Definition notch_filter (recording freq : Value) : Call :=
  CallFn "sp.notch_filter" [recording] [("freq", freq)].

Definition get_default_params (sorter_name : Value) : Call :=
  CallFn "ss.get_default_params" [sorter_name] [].
Definition run_sorter (sorter_name recording : Value) (params : Dict) : Call :=
  CallFn "ss.run_sorter" [sorter_name; recording]
    (("output_folder", VStr "sorting_output") :: params).

Definition axes_1_2 : Dict := [("axis", VTuple [VInt 1; VInt 2])].

(** The order in which the cells call the seven functions. *)
Definition notebook_order : list Fn :=
  [load_data_fn; preprocess_data_fn; sort_spikes_fn; postprocess_sorting_fn;
   extract_features_fn; cluster_spikes_fn; plot_cluster_features_fn].

(** The chain as the specification words it: load, preprocess, sort,
    extract-features, cluster, plot. *)
Definition spec_order : list Fn :=
  [load_data_fn; preprocess_data_fn; sort_spikes_fn; extract_features_fn;
   cluster_spikes_fn; plot_cluster_features_fn].

Definition fn_order (log : list FnEvent) : list Fn := map (fun ev => fn_of (fst ev)) log.

(** A log is a chain when each call works on exactly the value that the
    call before it returned. *)
Definition chained (log : list FnEvent) : Prop :=
  forall i c v c' o',
    nth_error log i = Some (c, Returned v) ->
    nth_error log (S i) = Some (c', o') ->
    data_inputs c' = [v].

(** The library calls of [postprocess_sorting]. *)
Definition create_extractor (recording sorting : Value) : Call :=
  CallFn "spost.WaveformExtractor.create" [recording; sorting]
    [("folder", VStr "waveforms"); ("remove_existing_folder", VBool true)].
Definition set_window (waveform_extractor : Value) : Call :=
  CallMethod waveform_extractor "set_params" []
    [("ms_before", VFloat float_1_5); ("ms_after", VFloat float_2_5)].
Definition run_extractor (waveform_extractor : Value) : Call :=
  CallMethod waveform_extractor "run" [] [].

(** The library calls of [plot_cluster_features]. *)
Definition column (features : Value) (i : Z) : Call :=
  GetItem features (VTuple [slice_all; VInt i]).
Definition scatter (x y labels : Value) : Call :=
  CallFn "px.scatter" [] [("x", x); ("y", y); ("color", labels)].
Definition update_layout (fig : Value) : Call :=
  CallMethod fig "update_layout" []
    [("title", VStr "Spike Clustering");
     ("xaxis_title", VStr "Feature 1");
     ("yaxis_title", VStr "Feature 2")].
Definition show (fig : Value) : Call := CallMethod fig "show" [] [].

(** The estimator that [cluster_spikes] builds for a supported method. *)
Definition clusterer (method : string) (kwargs : Dict) : option Call :=
  if String.eqb method "gmm" then
    Some (CallFn "GaussianMixture" []
            [("n_components", dict_get_default kwargs "n_components" (VInt 3))])
  else if String.eqb method "dbscan" then
    Some (CallFn "DBSCAN" []
            [("eps", dict_get_default kwargs "eps" (VFloat float_0_5));
             ("min_samples", dict_get_default kwargs "min_samples" (VInt 5))])
  else if String.eqb method "agglomerative" then
    Some (CallFn "AgglomerativeClustering" []
            [("n_clusters", dict_get_default kwargs "n_clusters" (VInt 3))])
  else None.

(** The keys of [kwargs] that [cluster_spikes] looks up for a method. *)
Definition keywords_read (method : string) : list string :=
  if String.eqb method "gmm" then ["n_components"]
  else if String.eqb method "dbscan" then ["eps"; "min_samples"]
  else if String.eqb method "agglomerative" then ["n_clusters"]
  else [].

(** Calls on which the notebook has nothing to object: the selector is a
    supported one, [notch_freq] is a built-in value, and [custom_params] is
    a dictionary that is not empty and does not set [output_folder]. *)
Definition well_formed_call (c : FnCall) : bool :=
  match c with
  | Load_data _ io_type => supported_io_type io_type
  | Preprocess_data _ _ _ notch_freq _ =>
      match truthy notch_freq with Some _ => true | None => false end
  | Sort_spikes _ _ (VDict (entry :: rest)) =>
      negb (dict_has (entry :: rest) "output_folder")
  | Sort_spikes _ _ _ => false
  | Postprocess_sorting _ _ => true
  | Extract_features _ _ _ => true
  | Cluster_spikes _ method _ => supported_clustering method
  | Plot_cluster_features _ _ => true
  end.









(** * Properties *)

(** ** Running programs: general facts *)

Section RunFacts.
Variable w : World.

Lemma run_ret {A} (a : A) (h : Trace) : run w h (Ret a) = (Returned a, []).
Proof. reflexivity. Qed.

Lemma run_raise {A} (e : Exn) (h : Trace) :
  run w h (Raise e : Prog Call A) = (Raised e, []).
Proof. reflexivity. Qed.

Lemma run_fault {A} (e : Exn) (h : Trace) :
  run w h (Fault e : Prog Call A) = (Raised e, []).
Proof. reflexivity. Qed.

Lemma run_vis {A} (c : Call) (k : Value -> Prog Call A) (h : Trace) :
  run w h (Vis c k) =
  match w h c with
  | Returned v =>
      let (r, t) := run w (h ++ [(c, Returned v)]) (k v) in
      (r, (c, Returned v) :: t)
  | Raised e => (Raised e, [(c, Raised e)])
  end.
Proof. reflexivity. Qed.

Lemma run_try {A} (c : Call) (handler : Exn -> Prog Call A)
    (k : Value -> Prog Call A) (h : Trace) :
  run w h (Try c handler k) =
  match w h c with
  | Returned v =>
      let (r, t) := run w (h ++ [(c, Returned v)]) (k v) in
      (r, (c, Returned v) :: t)
  | Raised e =>
      let (r, t) := run w (h ++ [(c, Raised e)]) (handler e) in
      (r, (c, Raised e) :: t)
  end.
Proof. reflexivity. Qed.

Lemma run_bind {A B} (p : Prog Call A) (f : A -> Prog Call B) (h : Trace) :
  run w h (x <- p ;; f x) =
  match run w h p with
  | (Returned a, t) => let (r, t') := run w (h ++ t) (f a) in (r, t ++ t')
  | (Raised e, t) => (Raised e, t)
  end.
Proof.
  revert h; induction p as [a | e | e | c k IH | c handler IHh k IHk];
    intros h; simpl.
  - rewrite app_nil_r. destruct (run w h (f a)); reflexivity.
  - reflexivity.
  - reflexivity.
  - destruct (w h c) as [v | e]; [ | reflexivity ].
    rewrite IH.
    destruct (run w (h ++ [(c, Returned v)]) (k v)) as [[a | e] t]; simpl.
    + rewrite <- app_assoc; simpl.
      destruct (run w (h ++ (c, Returned v) :: t) (f a)); reflexivity.
    + reflexivity.
  - destruct (w h c) as [v | e].
    + rewrite IHk.
      destruct (run w (h ++ [(c, Returned v)]) (k v)) as [[a | e] t]; simpl.
      * rewrite <- app_assoc; simpl.
        destruct (run w (h ++ (c, Returned v) :: t) (f a)); reflexivity.
      * reflexivity.
    + rewrite IHh.
      destruct (run w (h ++ [(c, Raised e)]) (handler e)) as [[a | e'] t]; simpl.
      * rewrite <- app_assoc; simpl.
        destruct (run w (h ++ (c, Raised e) :: t) (f a)); reflexivity.
      * reflexivity.
Qed.

Lemma run_catch {A B} (p : Prog Call A) (handler : Exn -> Prog Call B)
    (k : A -> Prog Call B) (h : Trace) :
  run w h (catch p handler k) =
  match run w h p with
  | (Returned a, t) => let (r, t') := run w (h ++ t) (k a) in (r, t ++ t')
  | (Raised e, t) => let (r, t') := run w (h ++ t) (handler e) in (r, t ++ t')
  end.
Proof.
  revert h; induction p as [a | e | e | c k' IH | c handler' IHh k' IHk];
    intros h; simpl.
  - rewrite app_nil_r. destruct (run w h (k a)); reflexivity.
  - rewrite app_nil_r. destruct (run w h (handler e)); reflexivity.
  - rewrite app_nil_r. destruct (run w h (handler e)); reflexivity.
  - destruct (w h c) as [v | e].
    + rewrite IH.
      destruct (run w (h ++ [(c, Returned v)]) (k' v)) as [[a | e] t]; simpl;
        rewrite <- app_assoc; simpl;
        destruct (run w (h ++ (c, Returned v) :: t) _); reflexivity.
    + simpl. destruct (run w (h ++ [(c, Raised e)]) (handler e)); reflexivity.
  - destruct (w h c) as [v | e].
    + rewrite IHk.
      destruct (run w (h ++ [(c, Returned v)]) (k' v)) as [[a | e] t]; simpl;
        rewrite <- app_assoc; simpl;
        destruct (run w (h ++ (c, Returned v) :: t) _); reflexivity.
    + rewrite IHh.
      destruct (run w (h ++ [(c, Raised e)]) (handler' e)) as [[a | e'] t]; simpl;
        rewrite <- app_assoc; simpl;
        destruct (run w (h ++ (c, Raised e) :: t) _); reflexivity.
Qed.

(** Running the statements and running their inlined form agree. *)
Lemma run_inline {A} (p : Prog Stmt A) (h : Trace) :
  run w h (inline p) = (fst (fst (run_script w h p)), snd (run_script w h p)).
Proof.
  revert h; induction p as [a | e | e | s k IH | s handler IHh k IHk];
    intros h; try reflexivity.
  - destruct s as [c | c]; simpl.
    + rewrite run_bind.
      destruct (run w h (body c)) as [[v | e] t]; [ | reflexivity ].
      rewrite IH. destruct (run_script w (h ++ t) (k v)) as [[r log] t']; reflexivity.
    + destruct (w h c) as [v | e]; [ | reflexivity ].
      rewrite IH.
      destruct (run_script w (h ++ [(c, Returned v)]) (k v)) as [[r log] t']; reflexivity.
  - destruct s as [c | c]; simpl.
    + rewrite run_catch.
      destruct (run w h (body c)) as [[v | e] t].
      * rewrite IHk.
        destruct (run_script w (h ++ t) (k v)) as [[r log] t']; reflexivity.
      * rewrite IHh.
        destruct (run_script w (h ++ t) (handler e)) as [[r log] t']; reflexivity.
    + destruct (w h c) as [v | e].
      * rewrite IHk.
        destruct (run_script w (h ++ [(c, Returned v)]) (k v)) as [[r log] t'];
          reflexivity.
      * rewrite IHh.
        destruct (run_script w (h ++ [(c, Raised e)]) (handler e)) as [[r log] t'];
          reflexivity.
Qed.
End RunFacts.

(** ** Strings *)

Lemma prefix_refl (s : string) : String.prefix s s = true.
Proof.
  induction s as [ | a s IH]; simpl; [ reflexivity | ].
  destruct (ascii_dec a a); [ exact IH | congruence ].
Qed.

Lemma contains_append (pre s : string) : contains s (pre ++ s) = true.
Proof.
  induction pre as [ | a pre IH]; simpl.
  - destruct s as [ | a s]; [ reflexivity | ].
    change (String.prefix (String a s) (String a s)
            || contains (String a s) s = true).
    rewrite prefix_refl. reflexivity.
  - rewrite IH. apply orb_true_r.
Qed.

(** ** Stepping through a body *)

(** Comparisons and concatenations of strings stay folded while a body is
    stepped through. *)
#[local] Arguments String.eqb : simpl never.
#[local] Arguments String.append : simpl never.

#[local] Arguments run : simpl never.

Ltac unfold_calls :=
  unfold call, call_method, getattr, getitem, ext in *.

(** A run that has come to its end. *)
Ltac done_running :=
  first [ rewrite run_ret | rewrite run_raise | rewrite run_fault ]; simpl.

(** Take the world's answer to the next library call of the run at hand;
    the run goes on in the first goal and has ended in the second. *)
Ltac answer :=
  first [ rewrite run_vis | rewrite run_try ];
  match goal with
  | |- context [match ?w ?h ?c with Returned _ => _ | Raised _ => _ end] =>
      let v := fresh "v" in
      let e := fresh "e" in
      let Hw := fresh "Hw" in
      destruct (w h c) as [v | e] eqn:Hw; simpl
  end.

(** Name the outcome and the trace of what is left of the run. *)
Ltac rest_of_run :=
  match goal with
  | |- context [run ?w ?h ?p] =>
      let o := fresh "o" in
      let t := fresh "t" in
      destruct (run w h p) as [o t]; simpl
  end.

(** ** The selector checks *)

(** X1: for every method other than ['gmm'], ['dbscan'] and
    ['agglomerative'] (so also for ['hdbscan'], which the docstring lists),
    [cluster_spikes] raises the [ValueError] that names the method, whatever
    the features and keywords are, and it does so before it calls any
    library. *)
Lemma cluster_spikes_unsupported (w : World) (h : Trace) (features : Value)
    (method : string) (kwargs : Dict) :
  supported_clustering method = false ->
  run w h (cluster_spikes features method kwargs)
  = (Raised (ValueError ("Unsupported clustering method: " ++ method)), [])
  /\ contains method ("Unsupported clustering method: " ++ method) = true.
Proof.
  intros H; unfold supported_clustering in H; simpl in H.
  apply orb_false_elim in H; destruct H as [H1 H].
  apply orb_false_elim in H; destruct H as [H2 H].
  apply orb_false_elim in H; destruct H as [H3 _].
  split; [ | apply contains_append ].
  unfold cluster_spikes. rewrite H1, H2, H3. reflexivity.
Qed.

(** [load_data] reports an unsupported selector once the three readers exist. *)
Lemma load_data_unsupported (w : World) (h : Trace) (file_path : Value)
    (io_type : string) (r1 r2 r3 : Value) :
  let e1 := (neuralynx_reader file_path, Returned r1) in
  let e2 := (blackrock_reader file_path, Returned r2) in
  let e3 := (nix_reader file_path, Returned r3) in
  supported_io_type io_type = false ->
  w h (neuralynx_reader file_path) = Returned r1 ->
  w (h ++ [e1]) (blackrock_reader file_path) = Returned r2 ->
  w ((h ++ [e1]) ++ [e2]) (nix_reader file_path) = Returned r3 ->
  run w h (load_data file_path io_type)
  = (Raised (ValueError ("Unsupported IO type: " ++ io_type)), [e1; e2; e3])
  /\ contains io_type ("Unsupported IO type: " ++ io_type) = true.
Proof.
  intros e1 e2 e3 H W1 W2 W3; subst e1 e2 e3.
  split; [ | apply contains_append ].
  unfold supported_io_type in H; simpl in H.
  apply orb_false_elim in H; destruct H as [H1 H].
  apply orb_false_elim in H; destruct H as [H2 H].
  apply orb_false_elim in H; destruct H as [H3 _].
  unfold neuralynx_reader, blackrock_reader, nix_reader in *.
  unfold load_data; unfold_calls; simpl.
  rewrite run_vis, W1, run_vis, W2, run_vis, W3.
  unfold dict_has; simpl. rewrite H1, H2, H3. reflexivity.
Qed.

(** C1 (failing input): [load_data] is given the unsupported selector
    ['CsvIO'] and a path at which the Neuralynx reader cannot be built.  The
    call ends with the reader's exception; no [ValueError] is raised and the
    message does not name the selector. *)
Theorem load_data_unsupported_io_type_masked :
  supported_io_type "CsvIO" = false
  /\ run no_neuralynx_world [] (load_data (VStr "data/sample_data") "CsvIO")
     = (Raised (mkExn "FileNotFoundError" "No such file or directory"),
        [(neuralynx_reader (VStr "data/sample_data"),
          Raised (mkExn "FileNotFoundError" "No such file or directory"))])
  /\ contains "CsvIO" "No such file or directory" = false.
Proof. repeat split. Qed.

(** C5: every call of [load_data] begins by building the Neuralynx, the
    Blackrock and the Nix reader on [file_path], in this order and whatever
    [io_type] is.  A run either stops at the first reader that cannot be
    built, with that reader's exception, or has built all three; only then
    is [io_type] looked at: an unsupported one gives the [ValueError] with no
    further call, a supported one goes on to [read_block] on one of the
    three readers. *)
Theorem load_data_builds_every_reader_first (w : World) (h : Trace)
    (file_path : Value) (io_type : string) :
  let (o, t) := run w h (load_data file_path io_type) in
  (exists e, t = [(neuralynx_reader file_path, Raised e)] /\ o = Raised e)
  \/ (exists r1 e,
        t = [(neuralynx_reader file_path, Returned r1);
             (blackrock_reader file_path, Raised e)]
        /\ o = Raised e)
  \/ (exists r1 r2 e,
        t = [(neuralynx_reader file_path, Returned r1);
             (blackrock_reader file_path, Returned r2);
             (nix_reader file_path, Raised e)]
        /\ o = Raised e)
  \/ (exists r1 r2 r3 rest,
        t = (neuralynx_reader file_path, Returned r1)
            :: (blackrock_reader file_path, Returned r2)
            :: (nix_reader file_path, Returned r3) :: rest
        /\ (supported_io_type io_type = false ->
            rest = []
            /\ o = Raised (ValueError ("Unsupported IO type: " ++ io_type)))
        /\ (supported_io_type io_type = true ->
            exists reader answer rest',
              dict_get [("NeuralynxIO", r1); ("BlackrockIO", r2); ("NixIO", r3)]
                io_type = Some reader
              /\ rest = (CallMethod reader "read_block" [] [], answer) :: rest')).
Proof.
  unfold load_data, neuralynx_reader, blackrock_reader, nix_reader; unfold_calls.
  simpl.
  answer; [ | left; eauto ].
  answer; [ | right; left; eauto ].
  answer; [ | right; right; left; eauto 6 ].
  unfold supported_io_type, dict_has; simpl.
  destruct (String.eqb "NeuralynxIO" io_type); simpl;
    [ | destruct (String.eqb "BlackrockIO" io_type); simpl;
        [ | destruct (String.eqb "NixIO" io_type); simpl ] ].
  4: { right; right; right.
       exists v, v0, v1, []. split; [ reflexivity | ].
       split; [ auto | discriminate ]. }
  all: answer; [ rest_of_run | ].
  all: right; right; right; do 3 eexists; eexists; (split; [ reflexivity | ]);
       (split; [ discriminate | ]); intros _;
       do 3 eexists; (split; [ | reflexivity ]); simpl; auto.
Qed.

(** ** Exceptions and returned values, for all seven functions *)

(** Walk through every path of a body: take the answers of the libraries
    one by one and split on the tests the body makes. *)
Ltac walk :=
  repeat (simpl;
          match goal with
          | |- context [run _ _ (Vis _ _)] => answer
          | |- context [run _ _ (Try _ _ _)] => answer
          | |- context [match truthy ?v with Some _ => _ | None => _ end] =>
              destruct v
          | |- context [match repeated_keyword ?a ?b with Some _ => _ | None => _ end] =>
              destruct (repeated_keyword a b) eqn:?
          | |- context [match ?v with VNone => _ | _ => _ end] =>
              is_var v; destruct v
          | |- context [if ?b then _ else _] => destruct b eqn:?
          end).





(** C8: whenever one of the six functions that end in a [return] statement
    returns a value, that value is the answer of one of the library calls
    the function made. *)
Theorem returned_values_come_from_libraries (f : FnCall) (w : World)
    (h : Trace) (v : Value) :
  has_return (fn_of f) = true ->
  fst (run w h (body f)) = Returned v ->
  exists c, In (c, Returned v) (snd (run w h (body f))).
Proof.
  destruct f; simpl; try discriminate; intros _.
  - unfold load_data, dict_has; unfold_calls. walk; try discriminate.
    all: intros H; inversion H; subst; eexists; simpl; eauto 12.
  - unfold preprocess_data, truth; unfold_calls. walk; try discriminate.
    all: intros H; inversion H; subst; eexists; simpl; eauto 12.
  - unfold sort_spikes, truth, keywords, mapping_entries; unfold_calls.
    walk; try discriminate.
    all: intros H; inversion H; subst; eexists; simpl; eauto 12.
  - unfold postprocess_sorting; unfold_calls. walk; try discriminate.
    all: intros H; inversion H; subst; eexists; simpl; eauto 12.
  - unfold extract_features; unfold_calls. walk; try discriminate.
    all: intros H; inversion H; subst; eexists; simpl; eauto 12.
  - unfold cluster_spikes; unfold_calls. walk; try discriminate.
    all: intros H; inversion H; subst; eexists; simpl; eauto 12.
Qed.

Lemma returned_values_come_from_libraries_witness :
  has_return (fn_of (Cluster_spikes (VObj 0) "gmm" [])) = true
  /\ fst (run sample_world [] (body (Cluster_spikes (VObj 0) "gmm" [])))
     = Returned (VObj 1)
  /\ exists c,
       In (c, Returned (VObj 1))
          (snd (run sample_world [] (body (Cluster_spikes (VObj 0) "gmm" [])))).
Proof.
  split; [ reflexivity | ].
  split; [ reflexivity | ].
  apply (returned_values_come_from_libraries (Cluster_spikes (VObj 0) "gmm" [])
           sample_world [] (VObj 1)); reflexivity.
Defined.

(** ** Where the notebook raises *)



(** Refute that a [raise] statement can be reached in the body at hand. *)
Ltac no_raise :=
  repeat (simpl in *;
          match goal with
          | H : has_raise (Ret _) |- _ => inversion H
          | H : has_raise (Fault _) |- _ => inversion H
          | H : has_raise (Vis _ _) |- _ => inversion H; clear H; subst
          | H : has_raise (Try _ _ _) |- _ => inversion H; clear H; subst
          | H : has_raise ?p |- _ =>
              match p with
              | context [match truthy ?v with Some _ => _ | None => _ end] =>
                  destruct v
              | context [match repeated_keyword ?a ?b with Some _ => _ | None => _ end] =>
                  destruct (repeated_keyword a b)
              | context [match ?v with VNone => _ | _ => _ end] =>
                  is_var v; destruct v
              | context [if ?b then _ else _] => destruct b
              end
          end).



(** ** Parameters handed on to the libraries *)




(** A dictionary without the key [output_folder] can be unpacked next to
    the explicit keyword [output_folder]. *)
Lemma no_repeated_output_folder (x : Value) (d : Dict) :
  dict_has d "output_folder" = false ->
  repeated_keyword [("output_folder", x)] d = None.
Proof.
  unfold dict_has. induction d as [ | [k v] d IH]; simpl; [ reflexivity | ].
  unfold dict_has; simpl. rewrite (String.eqb_sym "output_folder" k).
  destruct (String.eqb k "output_folder"); [ discriminate | exact IH ].
Qed.

(** The run of [sort_spikes] on a dictionary that is not empty. *)
Lemma run_sort_spikes_given (w : World) (h : Trace) (recording sorter_name : Value)
    (custom_params : Dict) :
  custom_params <> [] ->
  dict_has custom_params "output_folder" = false ->
  let sorter := run_sorter sorter_name recording custom_params in
  run w h (sort_spikes recording sorter_name (VDict custom_params))
  = (w h sorter, [(sorter, w h sorter)]).
Proof.
  intros Hne Hkey sorter; subst sorter.
  assert (Htruth : truthy (VDict custom_params) = Some true)
    by (destruct custom_params; [ congruence | reflexivity ]).
  unfold sort_spikes, truth, keywords, mapping_entries, run_sorter; unfold_calls.
  rewrite Htruth; cbn [bind].
  rewrite (no_repeated_output_folder _ _ Hkey); cbn [bind app].
  rewrite run_vis. destruct (w h _); reflexivity.
Qed.

(** The run of [sort_spikes] when the parameters count as missing and the
    library has a dictionary of defaults for the sorter. *)
Lemma run_sort_spikes_default (w : World) (h : Trace)
    (recording sorter_name custom_params : Value) (defaults : Dict) :
  truthy custom_params = Some false ->
  w h (get_default_params sorter_name) = Returned (VDict defaults) ->
  dict_has defaults "output_folder" = false ->
  let fetched := (get_default_params sorter_name, Returned (VDict defaults)) in
  let sorter := run_sorter sorter_name recording defaults in
  run w h (sort_spikes recording sorter_name custom_params)
  = (w (h ++ [fetched]) sorter, [fetched; (sorter, w (h ++ [fetched]) sorter)]).
Proof.
  intros Htruth Hw Hkey fetched sorter; subst fetched sorter.
  unfold sort_spikes, truth, keywords, mapping_entries, run_sorter,
    get_default_params in *; unfold_calls.
  rewrite Htruth; cbn [bind].
  rewrite run_vis, Hw; cbn [bind].
  rewrite (no_repeated_output_folder _ _ Hkey); cbn [bind app].
  rewrite run_vis. destruct (w (h ++ _) _); reflexivity.
Qed.

(** C7 (as the code has it): for every sorter name and every supplied
    dictionary that is not empty and has no key [output_folder],
    [sort_spikes] makes one library call, [run_sorter], with that sorter
    name, the given recording, [output_folder='sorting_output'] and the
    entries of the dictionary as keywords, and its outcome is that call's.
    When [custom_params] is [None], it first asks [get_default_params] for
    the sorter's defaults and calls [run_sorter] with those instead. *)
Theorem sort_spikes_forwards_params (w : World) (h : Trace)
    (recording sorter_name : Value) (custom_params : Dict) :
  custom_params <> [] ->
  dict_has custom_params "output_folder" = false ->
  (let sorter := run_sorter sorter_name recording custom_params in
   run w h (sort_spikes recording sorter_name (VDict custom_params))
   = (w h sorter, [(sorter, w h sorter)]))
  /\ (forall defaults,
        w h (get_default_params sorter_name) = Returned (VDict defaults) ->
        dict_has defaults "output_folder" = false ->
        let fetched := (get_default_params sorter_name, Returned (VDict defaults)) in
        let sorter := run_sorter sorter_name recording defaults in
        run w h (sort_spikes recording sorter_name VNone)
        = (w (h ++ [fetched]) sorter, [fetched; (sorter, w (h ++ [fetched]) sorter)])).
Proof.
  intros Hne Hkey; split.
  - apply run_sort_spikes_given; assumption.
  - intros defaults Hw Hd. apply run_sort_spikes_default; auto.
Qed.

Lemma sort_spikes_forwards_params_witness :
  let params : Dict := [("detect_threshold", VInt 5)] in
  params <> []
  /\ dict_has params "output_folder" = false
  /\ (let sorter := run_sorter (VStr "kilosort2") (VObj 0) params in
      run sample_world [] (sort_spikes (VObj 0) (VStr "kilosort2") (VDict params))
      = (sample_world [] sorter, [(sorter, sample_world [] sorter)]))
  /\ (forall defaults,
        sample_world [] (get_default_params (VStr "kilosort2"))
        = Returned (VDict defaults) ->
        dict_has defaults "output_folder" = false ->
        let fetched :=
          (get_default_params (VStr "kilosort2"), Returned (VDict defaults)) in
        let sorter := run_sorter (VStr "kilosort2") (VObj 0) defaults in
        run sample_world [] (sort_spikes (VObj 0) (VStr "kilosort2") VNone)
        = (sample_world ([] ++ [fetched]) sorter,
           [fetched; (sorter, sample_world ([] ++ [fetched]) sorter)])).
Proof.
  split; [ discriminate | ].
  split; [ reflexivity | ].
  apply (sort_spikes_forwards_params sample_world [] (VObj 0) (VStr "kilosort2")
           [("detect_threshold", VInt 5)]).
  - discriminate.
  - reflexivity.
Defined.

(** C7 (as stated) fails on two supplied dictionaries.  With the empty
    dictionary, [run_sorter] is not called with the entries of the
    dictionary (none) but with the defaults that [get_default_params]
    hands back.  With a dictionary that has the key [output_folder],
    [run_sorter] is not called at all: the keyword is given twice. *)
Lemma sort_spikes_params_not_always_forwarded :
  (calls (snd (run sample_world []
                 (sort_spikes (VObj 0) (VStr "kilosort2") (VDict []))))
   = [get_default_params (VStr "kilosort2");
      run_sorter (VStr "kilosort2") (VObj 0) [("detect_threshold", VInt 6)]]
   /\ ~ In (run_sorter (VStr "kilosort2") (VObj 0) [])
          (calls (snd (run sample_world []
                         (sort_spikes (VObj 0) (VStr "kilosort2") (VDict []))))))
  /\ run sample_world []
       (sort_spikes (VObj 0) (VStr "kilosort2")
          (VDict [("output_folder", VStr "elsewhere")]))
     = (Raised (TypeError
                  "run_sorter() got multiple values for keyword argument 'output_folder'"),
        []).
Proof.
  split; [ split | reflexivity ].
  - reflexivity.
  - vm_compute. intros [H | [H | []]]; discriminate H.
Qed.

(** C10: an empty [custom_params] dictionary makes [sort_spikes] run exactly
    as [None] does: the first call asks for the sorter's defaults, and when
    these come back they, not an empty set, are the parameters of
    [run_sorter].  A [notch_freq] of zero (integer or float) makes
    [preprocess_data] run exactly as [None] does, and the run has no notch
    filter call. *)
Theorem falsy_arguments_count_as_missing (w : World) (h : Trace)
    (recording sorter_name freq_min freq_max common_ref_type : Value) :
  run w h (sort_spikes recording sorter_name (VDict []))
  = run w h (sort_spikes recording sorter_name VNone)
  /\ (exists answer rest,
        snd (run w h (sort_spikes recording sorter_name (VDict [])))
        = (get_default_params sorter_name, answer) :: rest)
  /\ (forall defaults,
        w h (get_default_params sorter_name) = Returned (VDict defaults) ->
        dict_has defaults "output_folder" = false ->
        calls (snd (run w h (sort_spikes recording sorter_name (VDict []))))
        = [get_default_params sorter_name;
           run_sorter sorter_name recording defaults])
  /\ (forall zero,
        In zero [VInt 0; VFloat (S754_zero false); VFloat (S754_zero true)] ->
        run w h (preprocess_data recording freq_min freq_max zero common_ref_type)
        = run w h (preprocess_data recording freq_min freq_max VNone common_ref_type)
        /\ forall x freq,
            ~ In (notch_filter x freq)
                (calls (snd (run w h (preprocess_data recording freq_min freq_max
                                        zero common_ref_type))))).
Proof.
  split; [ reflexivity | ].
  split.
  { unfold sort_spikes, truth, get_default_params; unfold_calls; simpl.
    answer; [ rest_of_run | ]; eauto. }
  split.
  { intros defaults Hw Hkey.
    rewrite (run_sort_spikes_default w h recording sorter_name (VDict []) defaults);
      auto. }
  intros zero Hzero.
  assert (Hsame : preprocess_data recording freq_min freq_max zero common_ref_type
                  = preprocess_data recording freq_min freq_max VNone common_ref_type).
  { simpl in Hzero. destruct Hzero as [<- | [<- | [<- | []]]]; reflexivity. }
  rewrite Hsame; split; [ reflexivity | ].
  intros x freq.
  unfold preprocess_data, truth, notch_filter; unfold_calls; simpl.
  answer; [ answer | ]; simpl; intros Hin;
    repeat (destruct Hin as [Hin | Hin]; [ discriminate Hin | ]); exact Hin.
Qed.

(** ** Feature extraction without PCA *)

(** C9: for every [method] other than ['pca'], [extract_features] never
    raises on its own account: either a library call raises, and that
    exception is the outcome, or the run consists of [get_waveforms],
    [np.abs] of the waveforms, [np.mean] of that over axes 1 and 2, [np.std]
    of the waveforms over axes 1 and 2, and [np.column_stack] of the pair
    (mean, std), whose answer is returned.  [n_components] plays no part. *)
Theorem extract_features_without_pca (w : World) (h : Trace)
    (waveform_extractor : Value) (method : string) (n_components : Value) :
  method <> "pca" ->
  let (o, t) := run w h (extract_features waveform_extractor method n_components) in
  (exists t0 c e, t = t0 ++ [(c, Raised e)] /\ o = Raised e)
  \/ (exists waveforms magnitude spike_width spike_amplitude features,
        t = [(CallMethod waveform_extractor "get_waveforms" [] [], Returned waveforms);
             (CallFn "np.abs" [waveforms] [], Returned magnitude);
             (CallFn "np.mean" [magnitude] axes_1_2, Returned spike_width);
             (CallFn "np.std" [waveforms] axes_1_2, Returned spike_amplitude);
             (CallFn "np.column_stack" [VTuple [spike_width; spike_amplitude]] [],
              Returned features)]
        /\ o = Returned features).
Proof.
  intros Hmethod. apply String.eqb_neq in Hmethod.
  unfold extract_features, axes_1_2; unfold_calls; simpl.
  answer; [ | left; exists []; simpl; eauto ].
  rewrite Hmethod; simpl.
  answer; [ | left; eexists [_]; simpl; eauto ].
  answer; [ | left; eexists [_; _]; simpl; eauto ].
  answer; [ | left; eexists [_; _; _]; simpl; eauto ].
  answer; [ | left; eexists [_; _; _; _]; simpl; eauto ].
  right; eauto 10.
Qed.

Lemma extract_features_without_pca_witness :
  "waveform" <> "pca"
  /\ let (o, t) := run sample_world [] (extract_features (VObj 0) "waveform" (VInt 3)) in
     (exists t0 c e, t = t0 ++ [(c, Raised e)] /\ o = Raised e)
     \/ (exists waveforms magnitude spike_width spike_amplitude features,
           t = [(CallMethod (VObj 0) "get_waveforms" [] [], Returned waveforms);
                (CallFn "np.abs" [waveforms] [], Returned magnitude);
                (CallFn "np.mean" [magnitude] axes_1_2, Returned spike_width);
                (CallFn "np.std" [waveforms] axes_1_2, Returned spike_amplitude);
                (CallFn "np.column_stack" [VTuple [spike_width; spike_amplitude]] [],
                 Returned features)]
           /\ o = Returned features).
Proof.
  split; [ discriminate | ].
  apply (extract_features_without_pca sample_world [] (VObj 0) "waveform" (VInt 3)).
  discriminate.
Defined.

(** ** The cells in sequence *)

(** [plot_cluster_features] has no value to hand back. *)
Lemma plot_cluster_features_returns_none (w : World) (h : Trace)
    (features labels v : Value) (t : Trace) :
  run w h (plot_cluster_features features labels) = (Returned v, t) -> v = VNone.
Proof.
  unfold plot_cluster_features; unfold_calls. walk; intros H; inversion H; reflexivity.
Qed.

(** C2 (as the code has it): the cells call seven functions, one after the
    other, in the order load, preprocess, sort, postprocess, extract
    features, cluster, plot; a run that stops early has called a prefix of
    these.  In a run that completes, each function works on values exactly
    as earlier functions returned them: preprocess on the loaded recording;
    sort on the preprocessed recording; postprocess on the sorting and, once
    more, on the preprocessed recording; extract-features on the waveform
    extractor; cluster on the features; plot on the features and the
    labels. *)
Theorem example_usage_calls (w : World) (h : Trace) :
  let '(o, log, _) := run_script w h example_usage in
  (exists n, fn_order log = firstn n notebook_order)
  /\ (o = Returned tt ->
      exists recording recording_preprocessed sorting waveform_extractor
             features labels,
        log =
        [(Load_data (VStr "data/sample_data") "NeuralynxIO", Returned recording);
         (Preprocess_data recording (VInt 300) (VInt 3000) VNone (VStr "median"),
          Returned recording_preprocessed);
         (Sort_spikes recording_preprocessed (VStr "kilosort2") VNone,
          Returned sorting);
         (Postprocess_sorting sorting recording_preprocessed,
          Returned waveform_extractor);
         (Extract_features waveform_extractor "pca" (VInt 3), Returned features);
         (Cluster_spikes features "gmm" [], Returned labels);
         (Plot_cluster_features features labels, Returned VNone)]).
Proof.
  unfold example_usage, invoke, builtin, Default.io_type, Default.freq_min,
    Default.freq_max, Default.notch_freq, Default.common_ref_type,
    Default.sorter_name, Default.custom_params, Default.feature_method,
    Default.n_components.
  cbn [bind run_script].
  repeat match goal with
         | |- context [run w ?h' (body ?c)] =>
             let v := fresh "v" in
             let e := fresh "e" in
             let t := fresh "t" in
             let Hrun := fresh "Hrun" in
             destruct (run w h' (body c)) as [[v | e] t] eqn:Hrun;
             cbn [bind run_script];
             [ | split; [ | discriminate ] ]
         | |- context [match w ?h' ?c with Returned _ => _ | Raised _ => _ end] =>
             let v := fresh "v" in
             let e := fresh "e" in
             destruct (w h' c) as [v | e];
             cbn [bind run_script];
             [ | split; [ | discriminate ] ]
         end.
  all: try (split; [ exists 7; reflexivity | intros _ ]).
  1: { apply plot_cluster_features_returns_none in Hrun5; subst. eauto 10. }
  all: first [ exists 7; reflexivity | exists 6; reflexivity | exists 5; reflexivity
             | exists 4; reflexivity | exists 3; reflexivity | exists 2; reflexivity
             | exists 1; reflexivity ].
Qed.

(** C2 (as stated) fails in the world where every call succeeds: the cells
    call seven functions, not the six of the specification's chain;
    [postprocess_sorting] comes between sorting and feature extraction; and
    the calls do not form a chain, since [postprocess_sorting] works on two
    earlier results. *)
Lemma example_usage_is_not_the_spec_chain :
  let '(o, log, _) := run_script sample_world [] example_usage in
  o = Returned tt
  /\ fn_order log = notebook_order
  /\ fn_order log <> spec_order
  /\ ~ chained log.
Proof.
  vm_compute.
  split; [ reflexivity | ].
  split; [ reflexivity | ].
  split; [ discriminate | ].
  intros H. specialize (H 2%nat _ _ _ _ eq_refl eq_refl). discriminate H.
Qed.

(** * Further properties of the seven functions *)

(** ** Clustering *)

Lemma cluster_spikes_unsupported_witness :
  supported_clustering "hdbscan" = false
  /\ run sample_world [] (cluster_spikes (VObj 0) "hdbscan" [("min_samples", VInt 5)])
     = (Raised (ValueError ("Unsupported clustering method: " ++ "hdbscan")), [])
  /\ contains "hdbscan" ("Unsupported clustering method: " ++ "hdbscan") = true.
Proof.
  split; [ reflexivity | ].
  apply (cluster_spikes_unsupported sample_world [] (VObj 0) "hdbscan"
           [("min_samples", VInt 5)]).
  reflexivity.
Defined.

(** X2: [cluster_spikes] looks at no keyword but those of the chosen method
    ([n_components] for gmm; [eps] and [min_samples] for dbscan;
    [n_clusters] for agglomerative): two keyword dictionaries that agree on
    these give the same run.  Any other keyword, a misspelt one included, is
    dropped without a word. *)
Theorem cluster_spikes_reads_only_its_keywords (w : World) (h : Trace)
    (features : Value) (method : string) (kwargs kwargs' : Dict) :
  (forall key, In key (keywords_read method) ->
               dict_get kwargs key = dict_get kwargs' key) ->
  run w h (cluster_spikes features method kwargs)
  = run w h (cluster_spikes features method kwargs').
Proof.
  unfold keywords_read, cluster_spikes, dict_get_default; intros Hsame.
  destruct (String.eqb method "gmm").
  { rewrite (Hsame "n_components") by (simpl; auto). reflexivity. }
  destruct (String.eqb method "dbscan").
  { rewrite (Hsame "eps"), (Hsame "min_samples") by (simpl; auto). reflexivity. }
  destruct (String.eqb method "agglomerative").
  { rewrite (Hsame "n_clusters") by (simpl; auto). reflexivity. }
  reflexivity.
Qed.

Lemma cluster_spikes_reads_only_its_keywords_witness :
  (forall key, In key (keywords_read "gmm") ->
               dict_get [("n_clusters", VInt 7); ("n_componets", VInt 9)] key
               = dict_get [] key)
  /\ run sample_world []
       (cluster_spikes (VObj 0) "gmm" [("n_clusters", VInt 7); ("n_componets", VInt 9)])
     = run sample_world [] (cluster_spikes (VObj 0) "gmm" []).
Proof.
  assert (Hsame : forall key, In key (keywords_read "gmm") ->
            dict_get [("n_clusters", VInt 7); ("n_componets", VInt 9)] key
            = dict_get [] key)
    by (intros key [<- | []]; reflexivity).
  split; [ exact Hsame | ].
  exact (cluster_spikes_reads_only_its_keywords sample_world [] (VObj 0) "gmm"
           [("n_clusters", VInt 7); ("n_componets", VInt 9)] [] Hsame).
Defined.

(** X3: for a supported method, [cluster_spikes] builds the estimator of
    that method, with each parameter taken from [kwargs] or else its default
    (3 components; eps 0.5 and 5 samples; 3 clusters), and calls
    [fit_predict] on it with the features as given.  These are its only
    calls, and its outcome is the outcome of [fit_predict]. *)
Theorem cluster_spikes_fits_one_estimator (w : World) (h : Trace)
    (features : Value) (method : string) (kwargs : Dict) :
  supported_clustering method = true ->
  exists build,
    clusterer method kwargs = Some build
    /\ let (o, t) := run w h (cluster_spikes features method kwargs) in
       (exists e, t = [(build, Raised e)] /\ o = Raised e)
       \/ (exists estimator,
             t = [(build, Returned estimator);
                  (CallMethod estimator "fit_predict" [features] [], o)]).
Proof.
  unfold supported_clustering, clusterer, cluster_spikes; simpl; unfold_calls.
  intros Hsup.
  destruct (String.eqb method "gmm");
    [ | destruct (String.eqb method "dbscan");
        [ | destruct (String.eqb method "agglomerative"); [ | discriminate ] ] ].
  all: eexists; split; [ reflexivity | ]; simpl.
  all: answer; [ answer; right; eauto | left; eauto ].
Qed.

Lemma cluster_spikes_fits_one_estimator_witness :
  supported_clustering "dbscan" = true
  /\ exists build,
       clusterer "dbscan" [("eps", VInt 2)] = Some build
       /\ let (o, t) := run sample_world []
                          (cluster_spikes (VObj 0) "dbscan" [("eps", VInt 2)]) in
          (exists e, t = [(build, Raised e)] /\ o = Raised e)
          \/ (exists estimator,
                t = [(build, Returned estimator);
                     (CallMethod estimator "fit_predict" [VObj 0] [], o)]).
Proof.
  split; [ reflexivity | ].
  apply (cluster_spikes_fits_one_estimator sample_world [] (VObj 0) "dbscan"
           [("eps", VInt 2)]).
  reflexivity.
Defined.

(** ** Loading *)

(** X4: when [load_data] returns, its run is: the three readers built;
    [read_block] on the reader that [io_type] selects; the first segment of
    the block; the first analog signal of that segment; and
    [NeoRecordingExtractor] on that signal, whose answer is the recording
    returned.  Later segments and signals are never touched, and
    [read_block] on the selected reader is the only call made on a reader. *)
Theorem load_data_reads_first_signal (w : World) (h : Trace)
    (file_path : Value) (io_type : string) (recording : Value) :
  fst (run w h (load_data file_path io_type)) = Returned recording ->
  exists r1 r2 r3 reader block segments segment analogsignals analog_signal,
    dict_get [("NeuralynxIO", r1); ("BlackrockIO", r2); ("NixIO", r3)] io_type
    = Some reader
    /\ snd (run w h (load_data file_path io_type))
       = [(neuralynx_reader file_path, Returned r1);
          (blackrock_reader file_path, Returned r2);
          (nix_reader file_path, Returned r3);
          (CallMethod reader "read_block" [] [], Returned block);
          (GetAttr block "segments", Returned segments);
          (GetItem segments (VInt 0), Returned segment);
          (GetAttr segment "analogsignals", Returned analogsignals);
          (GetItem analogsignals (VInt 0), Returned analog_signal);
          (CallFn "se.NeoRecordingExtractor" [analog_signal] [], Returned recording)].
Proof.
  unfold load_data, neuralynx_reader, blackrock_reader, nix_reader, dict_has;
    unfold_calls; simpl.
  answer; [ | discriminate ].
  answer; [ | discriminate ].
  answer; [ | discriminate ].
  destruct (String.eqb "NeuralynxIO" io_type); simpl;
    [ | destruct (String.eqb "BlackrockIO" io_type); simpl;
        [ | destruct (String.eqb "NixIO" io_type); simpl; [ | discriminate ] ] ].
  all: do 6 (answer; [ | discriminate ]).
  all: intros H; inversion H; subst.
  all: do 9 eexists; split; reflexivity.
Qed.

Lemma load_data_reads_first_signal_witness :
  fst (run sample_world [] (load_data (VStr "data/sample_data") "BlackrockIO"))
  = Returned (VObj 8)
  /\ exists r1 r2 r3 reader block segments segment analogsignals analog_signal,
       dict_get [("NeuralynxIO", r1); ("BlackrockIO", r2); ("NixIO", r3)] "BlackrockIO"
       = Some reader
       /\ snd (run sample_world [] (load_data (VStr "data/sample_data") "BlackrockIO"))
          = [(neuralynx_reader (VStr "data/sample_data"), Returned r1);
             (blackrock_reader (VStr "data/sample_data"), Returned r2);
             (nix_reader (VStr "data/sample_data"), Returned r3);
             (CallMethod reader "read_block" [] [], Returned block);
             (GetAttr block "segments", Returned segments);
             (GetItem segments (VInt 0), Returned segment);
             (GetAttr segment "analogsignals", Returned analogsignals);
             (GetItem analogsignals (VInt 0), Returned analog_signal);
             (CallFn "se.NeoRecordingExtractor" [analog_signal] [], Returned (VObj 8))].
Proof.
  split; [ reflexivity | ].
  apply (load_data_reads_first_signal sample_world [] (VStr "data/sample_data")
           "BlackrockIO" (VObj 8)).
  reflexivity.
Defined.

(** ** Waveforms and features *)

(** X5: [postprocess_sorting], whose parameters are (sorting, recording),
    calls [WaveformExtractor.create] with the recording first and the
    sorting second, on the folder ['waveforms'] and with
    [remove_existing_folder=True]; it then sets the window to 1.5 ms before
    and 2.5 ms after, and runs the extractor.  What it returns is the
    extractor that [create] answered, whatever [set_params] and [run]
    answer; a call that raises ends it. *)
Theorem postprocess_sorting_run (w : World) (h : Trace) (sorting recording : Value) :
  let (o, t) := run w h (postprocess_sorting sorting recording) in
  (exists e, t = [(create_extractor recording sorting, Raised e)] /\ o = Raised e)
  \/ (exists extractor e,
        t = [(create_extractor recording sorting, Returned extractor);
             (set_window extractor, Raised e)]
        /\ o = Raised e)
  \/ (exists extractor a e,
        t = [(create_extractor recording sorting, Returned extractor);
             (set_window extractor, Returned a);
             (run_extractor extractor, Raised e)]
        /\ o = Raised e)
  \/ (exists extractor a b,
        t = [(create_extractor recording sorting, Returned extractor);
             (set_window extractor, Returned a);
             (run_extractor extractor, Returned b)]
        /\ o = Returned extractor).
Proof.
  unfold postprocess_sorting, create_extractor, set_window, run_extractor;
    unfold_calls; simpl.
  answer; [ | left; eauto ].
  answer; [ | right; left; eauto ].
  answer; [ | right; right; left; eauto 6 ].
  right; right; right; eauto 6.
Qed.

(** X6: with [method] ['pca'], [extract_features] gets the waveforms, builds
    [PCA] with [n_components] as given, reads the number of spikes off the
    first entry of the waveforms' shape, reshapes the waveforms to that many
    rows (and [-1] columns), and returns what [fit_transform] makes of them;
    a call that raises ends it with that exception. *)
Theorem extract_features_pca (w : World) (h : Trace)
    (waveform_extractor n_components : Value) :
  let (o, t) := run w h (extract_features waveform_extractor "pca" n_components) in
  (exists t0 c e, t = t0 ++ [(c, Raised e)] /\ o = Raised e)
  \/ (exists waveforms pca shape n_spikes flat features,
        t = [(CallMethod waveform_extractor "get_waveforms" [] [], Returned waveforms);
             (CallFn "PCA" [] [("n_components", n_components)], Returned pca);
             (GetAttr waveforms "shape", Returned shape);
             (GetItem shape (VInt 0), Returned n_spikes);
             (CallMethod waveforms "reshape" [n_spikes; VInt (-1)] [], Returned flat);
             (CallMethod pca "fit_transform" [flat] [], Returned features)]
        /\ o = Returned features).
Proof.
  unfold extract_features; unfold_calls.
  change (String.eqb "pca" "pca") with true; simpl.
  answer; [ | left; exists []; simpl; eauto ].
  answer; [ | left; eexists [_]; simpl; eauto ].
  answer; [ | left; eexists [_; _]; simpl; eauto ].
  answer; [ | left; eexists [_; _; _]; simpl; eauto ].
  answer; [ | left; eexists [_; _; _; _]; simpl; eauto ].
  answer; [ | left; eexists [_; _; _; _; _]; simpl; eauto ].
  right; eauto 12.
Qed.

(** ** Plotting *)

(** X7: [plot_cluster_features] takes columns 0 and 1 of the features,
    whatever number of columns there is, makes a scatter figure of them
    coloured by the labels, sets the three titles and shows the figure.  It
    returns [None] whatever [show] answers; a call that raises ends it with
    that exception. *)
Theorem plot_cluster_features_run (w : World) (h : Trace) (features labels : Value) :
  let (o, t) := run w h (plot_cluster_features features labels) in
  (exists t0 c e, t = t0 ++ [(c, Raised e)] /\ o = Raised e)
  \/ (exists x y fig a b,
        t = [(column features 0, Returned x);
             (column features 1, Returned y);
             (scatter x y labels, Returned fig);
             (update_layout fig, Returned a);
             (show fig, Returned b)]
        /\ o = Returned VNone).
Proof.
  unfold plot_cluster_features, column, scatter, update_layout, show;
    unfold_calls; simpl.
  answer; [ | left; exists []; simpl; eauto ].
  answer; [ | left; eexists [_]; simpl; eauto ].
  answer; [ | left; eexists [_; _]; simpl; eauto ].
  answer; [ | left; eexists [_; _; _]; simpl; eauto ].
  answer; [ | left; eexists [_; _; _; _]; simpl; eauto ].
  right; eauto 12.
Qed.

(** ** Sorter parameters that cannot be passed on *)

Lemma repeated_output_folder (x : Value) (d : Dict) :
  dict_has d "output_folder" = true ->
  repeated_keyword [("output_folder", x)] d = Some "output_folder".
Proof.
  unfold dict_has. induction d as [ | [k v] d IH]; simpl; [ discriminate | ].
  unfold dict_has; simpl. rewrite (String.eqb_sym k "output_folder").
  destruct (String.eqb "output_folder" k) eqn:Hk; [ | exact IH ].
  intros _. apply String.eqb_eq in Hk. congruence.
Qed.

(** X8: a [custom_params] dictionary that sets [output_folder] cannot be
    used: [sort_spikes] ends with a [TypeError] (the keyword is given twice)
    and neither [get_default_params] nor [run_sorter] is called.  The output
    folder is always ['sorting_output']. *)
Theorem sort_spikes_output_folder_is_fixed (w : World) (h : Trace)
    (recording sorter_name : Value) (custom_params : Dict) :
  dict_has custom_params "output_folder" = true ->
  exists msg,
    run w h (sort_spikes recording sorter_name (VDict custom_params))
    = (Raised (TypeError msg), []).
Proof.
  intros Hkey.
  assert (Htruth : truthy (VDict custom_params) = Some true)
    by (destruct custom_params; [ discriminate | reflexivity ]).
  unfold sort_spikes, truth, keywords, mapping_entries; unfold_calls.
  rewrite Htruth; cbn [bind].
  rewrite (repeated_output_folder _ _ Hkey); cbn [bind].
  eexists; reflexivity.
Qed.

Lemma sort_spikes_output_folder_is_fixed_witness :
  dict_has [("detect_threshold", VInt 5); ("output_folder", VStr "elsewhere")]
    "output_folder" = true
  /\ exists msg,
       run sample_world []
         (sort_spikes (VObj 0) (VStr "kilosort2")
            (VDict [("detect_threshold", VInt 5); ("output_folder", VStr "elsewhere")]))
       = (Raised (TypeError msg), []).
Proof.
  split; [ reflexivity | ].
  apply (sort_spikes_output_folder_is_fixed sample_world [] (VObj 0) (VStr "kilosort2")
           [("detect_threshold", VInt 5); ("output_folder", VStr "elsewhere")]).
  reflexivity.
Defined.

(** X9: a [custom_params] that is a built-in value, counts as true and is
    not a dictionary (a non-zero number, [True], a non-empty string or
    tuple) is not checked by [sort_spikes]; unpacking it fails with a
    [TypeError] before any library is called. *)
Theorem sort_spikes_params_must_be_a_mapping (w : World) (h : Trace)
    (recording sorter_name custom_params : Value) :
  truthy custom_params = Some true ->
  (forall d, custom_params <> VDict d) ->
  exists msg,
    run w h (sort_spikes recording sorter_name custom_params)
    = (Raised (TypeError msg), []).
Proof.
  intros Htruth Hdict.
  unfold sort_spikes, truth; rewrite Htruth; cbn [bind].
  unfold keywords, mapping_entries.
  destruct custom_params; try discriminate Htruth;
    try (eexists; reflexivity).
  exfalso; eapply Hdict; reflexivity.
Qed.

Lemma sort_spikes_params_must_be_a_mapping_witness :
  truthy (VStr "fast") = Some true
  /\ (forall d, VStr "fast" <> VDict d)
  /\ exists msg,
       run sample_world [] (sort_spikes (VObj 0) (VStr "kilosort2") (VStr "fast"))
       = (Raised (TypeError msg), []).
Proof.
  split; [ reflexivity | ].
  split; [ discriminate | ].
  apply (sort_spikes_params_must_be_a_mapping sample_world [] (VObj 0)
           (VStr "kilosort2") (VStr "fast")).
  - reflexivity.
  - discriminate.
Defined.

(** X10: every built-in value that counts as false ([None], [False], zero,
    the empty string, tuple or dictionary) is a missing argument, for
    [custom_params] as for [notch_freq]: [sort_spikes] and
    [preprocess_data] run on it exactly as they run on [None]. *)
Theorem falsy_values_run_as_none (w : World) (h : Trace)
    (recording sorter_name freq_min freq_max common_ref_type falsy : Value) :
  truthy falsy = Some false ->
  run w h (sort_spikes recording sorter_name falsy)
  = run w h (sort_spikes recording sorter_name VNone)
  /\ run w h (preprocess_data recording freq_min freq_max falsy common_ref_type)
     = run w h (preprocess_data recording freq_min freq_max VNone common_ref_type).
Proof.
  intros Htruth.
  unfold sort_spikes, preprocess_data, truth. rewrite Htruth. split; reflexivity.
Qed.

Lemma falsy_values_run_as_none_witness :
  truthy (VBool false) = Some false
  /\ run sample_world [] (sort_spikes (VObj 0) (VStr "kilosort2") (VBool false))
     = run sample_world [] (sort_spikes (VObj 0) (VStr "kilosort2") VNone)
  /\ run sample_world []
       (preprocess_data (VObj 0) (VInt 300) (VInt 3000) (VBool false) (VStr "median"))
     = run sample_world []
         (preprocess_data (VObj 0) (VInt 300) (VInt 3000) VNone (VStr "median")).
Proof.
  split; [ reflexivity | ].
  apply (falsy_values_run_as_none sample_world [] (VObj 0) (VStr "kilosort2")
           (VInt 300) (VInt 3000) (VStr "median") (VBool false)).
  reflexivity.
Defined.

(** ** Failures come from the libraries *)

(** X11: on a well-formed call (a supported selector, a built-in
    [notch_freq], a non-empty [custom_params] dictionary that leaves
    [output_folder] alone) each of the seven functions returns whenever
    none of its library calls raises: the only way such a call fails is an
    exception of a library. *)
Theorem well_formed_calls_fail_only_in_libraries (c : FnCall) (w : World)
    (h : Trace) :
  well_formed_call c = true ->
  all_returned (snd (run w h (body c))) = true ->
  exists v, fst (run w h (body c)) = Returned v.
Proof.
  destruct c as [file_path io_type | recording fmin fmax notch cref
                 | recording sorter_name custom_params | sorting recording
                 | waveform_extractor method n_components | features method kwargs
                 | features labels];
    simpl well_formed_call; simpl body.
  - unfold supported_io_type, load_data, dict_has; unfold_calls; simpl.
    destruct (String.eqb "NeuralynxIO" io_type); simpl;
      [ | destruct (String.eqb "BlackrockIO" io_type); simpl;
          [ | destruct (String.eqb "NixIO" io_type); simpl ] ].
    all: intros Hwf; try discriminate Hwf.
    all: walk; intros Hall; first [ discriminate Hall | eexists; reflexivity ].
  - unfold preprocess_data, truth.
    destruct (truthy notch) as [supplied | ]; [ intros _ | discriminate ].
    unfold_calls. walk; intros Hall; first [ discriminate Hall | eexists; reflexivity ].
  - destruct custom_params as [ | | | | | | [ | entry rest] | | ]; try discriminate.
    intros Hwf Hall. apply negb_true_iff in Hwf.
    rewrite run_sort_spikes_given in * by (auto; discriminate).
    simpl in *. destruct (w h _); [ eexists; reflexivity | discriminate Hall ].
  - intros _. unfold postprocess_sorting; unfold_calls.
    walk; intros Hall; first [ discriminate Hall | eexists; reflexivity ].
  - intros _. unfold extract_features; unfold_calls.
    walk; intros Hall; first [ discriminate Hall | eexists; reflexivity ].
  - unfold supported_clustering, cluster_spikes; simpl; unfold_calls.
    destruct (String.eqb method "gmm");
      [ | destruct (String.eqb method "dbscan");
          [ | destruct (String.eqb method "agglomerative") ] ].
    all: intros Hwf; try discriminate Hwf.
    all: walk; intros Hall; first [ discriminate Hall | eexists; reflexivity ].
  - intros _. unfold plot_cluster_features; unfold_calls.
    walk; intros Hall; first [ discriminate Hall | eexists; reflexivity ].
Qed.

Lemma well_formed_calls_fail_only_in_libraries_witness :
  let c := Sort_spikes (VObj 0) (VStr "kilosort2")
             (VDict [("detect_threshold", VInt 5)]) in
  well_formed_call c = true
  /\ all_returned (snd (run sample_world [] (body c))) = true
  /\ exists v, fst (run sample_world [] (body c)) = Returned v.
Proof.
  split; [ reflexivity | ].
  split; [ reflexivity | ].
  apply (well_formed_calls_fail_only_in_libraries
           (Sort_spikes (VObj 0) (VStr "kilosort2")
              (VDict [("detect_threshold", VInt 5)]))
           sample_world []); reflexivity.
Defined.

(** X12: the cells never reach a [raise] statement: with the selectors they
    pass (the default ['NeuralynxIO'], and ['gmm']) neither check of the
    notebook can fire, whatever the libraries answer. *)
Theorem example_usage_reaches_no_raise : ~ has_raise (inline example_usage).
Proof.
  intros H.
  unfold example_usage, invoke, builtin, Default.io_type, Default.feature_method,
    Default.custom_params, Default.notch_freq in H.
  cbn [inline bind body] in H.
  unfold load_data, preprocess_data, sort_spikes, postprocess_sorting,
    extract_features, cluster_spikes, plot_cluster_features, truth, keywords,
    mapping_entries, dict_has in H; unfold_calls.
  change (String.eqb "pca" "pca") with true in H.
  change (String.eqb "gmm" "gmm") with true in H.
  simpl in H.
  change (String.eqb "NeuralynxIO" "NeuralynxIO") with true in H.
  no_raise.
Qed.

(** ** The two checks, and nothing else *)




